(** * BindLink: construction and execution of a bind query

    A shallow embedding of [opencog/atoms/pattern/BindLink.cc]:
    [BindLink::init], [BindLink::extract_variables],
    [BindLink::do_execute] and [BindLink::execute].

    Atoms are immutable and compared by content, so a [Handle] is
    modelled as the atom it points to.  C++ exceptions become an
    explicit outcome type.  The pattern matcher, the instantiator, the
    name server and the variable-scope helpers live in other files of
    the repository; they are taken as parameters of the section. *)

From Stdlib Require Import DecimalString DecimalZ DecimalPos.
From stdpp Require Import base numbers option list strings countable gmap sets.

Open Scope string_scope.

(** ** Atoms and handles *)

(** [Type] is an integer tag handed out by the name server. *)
Definition Type_ := nat.

(** A handle is either the null handle or points to a node (type and
    name) or to a link (type and outgoing sequence). *)
#[local] Unset Elimination Schemes.
Inductive Handle : Type :=
| UNDEFINED
| Node (t : Type_) (name : string)
| Link (t : Type_) (out : list Handle).
#[local] Set Elimination Schemes.

Definition HandleSeq := list Handle.

Section Handle_ind.
Variable P : Handle → Prop.
Hypothesis P_undefined : P UNDEFINED.
Hypothesis P_node : ∀ t name, P (Node t name).
Hypothesis P_link : ∀ t out, Forall P out → P (Link t out).

Fixpoint Handle_nested_ind (h : Handle) : P h :=
  match h with
  | UNDEFINED => P_undefined
  | Node t name => P_node t name
  | Link t out =>
      P_link t out
        ((fix go (l : list Handle) : Forall P l :=
            match l with
            | [] => Forall_nil_2 P
            | x :: l' => Forall_cons_2 P x l' (Handle_nested_ind x) (go l')
            end) out)
  end.
End Handle_ind.

Fixpoint Handle_to_tree (h : Handle) : gen_tree (option (Type_ * string)) :=
  match h with
  | UNDEFINED => GenLeaf None
  | Node t name => GenLeaf (Some (t, name))
  | Link t out => GenNode t (map Handle_to_tree out)
  end.

Fixpoint Handle_of_tree (g : gen_tree (option (Type_ * string))) : Handle :=
  match g with
  | GenLeaf None => UNDEFINED
  | GenLeaf (Some (t, name)) => Node t name
  | GenNode t gs => Link t (map Handle_of_tree gs)
  end.

Lemma Handle_of_to_tree (h : Handle) : Handle_of_tree (Handle_to_tree h) = h.
Proof.
  induction h as [| t name | t out IH] using Handle_nested_ind; simpl; try done.
  f_equal. induction IH as [| x l Hx _ IHl]; simpl; [done |].
  by rewrite Hx, IHl.
Qed.

#[global] Instance Handle_to_tree_inj : Inj (=) (=) Handle_to_tree.
Proof.
  intros a b Hab. rewrite <- (Handle_of_to_tree a), <- (Handle_of_to_tree b).
  by rewrite Hab.
Qed.

#[global] Instance Handle_eq_dec : EqDecision Handle.
Proof.
  intros a b. destruct (decide (Handle_to_tree a = Handle_to_tree b)) as [H | H].
  - left. by apply (inj Handle_to_tree).
  - right. intros ->. by apply H.
Defined.

#[global] Instance Handle_countable : Countable Handle :=
  inj_countable' Handle_to_tree Handle_of_tree Handle_of_to_tree.

(** [HandleSet] is [std::set<Handle>]: no duplicates, no insertion order. *)
Abbreviation HandleSet := (gset Handle).

#[global] Instance Handle_inhabited : Inhabited Handle := populate UNDEFINED.

(** ** Exceptions and outcomes *)

(** Exceptions are tagged by where they are thrown: [InvalidParamException]
    is the one this file throws, with its formatted message; [Foreign] is
    any exception thrown inside a collaborator.  Nothing in this file
    catches either. *)
Inductive exception : Type :=
| InvalidParamException (msg : string)
| Foreign (what : string).

(** What a call does: it returns, it throws, or it calls a member
    function through a null pointer. *)
Inductive outcome (A : Type) : Type :=
| Returns (a : A)
| Throws (e : exception)
| NullDereference.
Arguments Returns {A} a.
Arguments Throws {A} e.
Arguments NullDereference {A}.

#[global] Instance outcome_ret : MRet outcome := λ A a, Returns a.
#[global] Instance outcome_bind : MBind outcome := λ A B f m,
  match m with
  | Returns a => f a
  | Throws e => Throws e
  | NullDereference => NullDereference
  end.

(** A collaborator either throws (left, with what it says) or returns. *)
Definition call {A} (r : string + A) : outcome A :=
  match r with
  | inl what => Throws (Foreign what)
  | inr a => Returns a
  end.

(** [printf]'s [%d] applied to a [size_t]: the low 32 bits of the size,
    read as a signed [int] and printed in decimal.  Below 2^31 this is
    the numeral of the size; from 2^31 on it is not. *)
Definition format_d (n : nat) : string :=
  let w := (Z.of_nat n mod 2 ^ 32)%Z in
  let i := if (w <? 2 ^ 31)%Z then w else (w - 2 ^ 32)%Z in
  NilZero.string_of_int (Z.to_int i).

(** The decimal numeral of a size, and the number a numeral names. *)
Definition numeral (n : nat) : string := NilZero.string_of_int (Z.to_int (Z.of_nat n)).
Definition number_named (s : string) : option Z := Z.of_int <$> NilZero.int_of_string s.

(** ** The objects the file works on *)

(** Modelled from the spec: the graph store ([AtomSpace], not in this
    file) holds each structurally distinct fragment once; a fragment's
    identifier is its position in the table. *)
Record AtomSpace : Type := mkAtomSpace { atom_table : list Handle }.

Definition FragmentId := nat.

(** The scoped variables, in order, with their type restrictions. *)
Record Variables : Type := mkVariables {
  varseq : HandleSeq;
  typemap : list (Handle * list Type_)
}.

(** The part of [Pattern] this file reads or writes. *)
Record Pattern : Type := mkPattern {
  redex_name : string;
  mandatory : HandleSeq;
  optionals : HandleSeq
}.

(** The members of a [BindLink] object (its own and the inherited ones
    this file touches). *)
Record BindLink : Type := mkBindLink {
  _type : Type_;
  _outgoing : HandleSeq;
  _atom_space : option AtomSpace;
  _vardecl : Handle;
  _body : Handle;
  _implicand : Handle;
  _varlist : Variables;
  _pat : Pattern;
  _virtual : HandleSeq;
  _components : list HandleSeq
}.

Definition get_type (self : BindLink) : Type_ := _type self.
Definition get_implicand (self : BindLink) : Handle := _implicand self.
Definition get_pattern (self : BindLink) : Pattern := _pat self.

Definition set_vardecl (h : Handle) (self : BindLink) : BindLink :=
  mkBindLink (_type self) (_outgoing self) (_atom_space self) h (_body self)
    (_implicand self) (_varlist self) (_pat self) (_virtual self) (_components self).
Definition set_body (h : Handle) (self : BindLink) : BindLink :=
  mkBindLink (_type self) (_outgoing self) (_atom_space self) (_vardecl self) h
    (_implicand self) (_varlist self) (_pat self) (_virtual self) (_components self).
Definition set_implicand (h : Handle) (self : BindLink) : BindLink :=
  mkBindLink (_type self) (_outgoing self) (_atom_space self) (_vardecl self)
    (_body self) h (_varlist self) (_pat self) (_virtual self) (_components self).
Definition set_varlist (v : Variables) (self : BindLink) : BindLink :=
  mkBindLink (_type self) (_outgoing self) (_atom_space self) (_vardecl self)
    (_body self) (_implicand self) v (_pat self) (_virtual self) (_components self).
Definition set_redex_name (s : string) (self : BindLink) : BindLink :=
  mkBindLink (_type self) (_outgoing self) (_atom_space self) (_vardecl self)
    (_body self) (_implicand self) (_varlist self)
    (mkPattern s (mandatory (_pat self)) (optionals (_pat self)))
    (_virtual self) (_components self).

(** The name server: the type hierarchy and the type names. *)
Record NameServer : Type := mkNameServer {
  isA : Type_ → Type_ → bool;
  getTypeName : Type_ → string
}.

(** ** Construction *)

Section Construction.
Variable nameserver : NameServer.
Variable BIND_LINK : Type_.

(** [FreeVariables::find_variables]: adds the free variables of a
    fragment to a scope. *)
Variable find_variables : Variables → Handle → Variables.
(** [init_scoped_variables]: parses an explicit declaration into the
    scope, or throws on a malformed one. *)
Variable init_scoped_variables : Handle → string + Variables.
(** The initialisation steps inherited from [PatternLink]. *)
Variable unbundle_clauses : Handle → BindLink → string + BindLink.
Variable common_init : BindLink → string + BindLink.
Variable setup_components : BindLink → string + BindLink.

Definition extract_variables (self : BindLink) (oset : HandleSeq) : outcome BindLink :=
  let sz := length oset in
  if ((sz <? 2) || (3 <? sz))%nat then
    Throws (InvalidParamException
              ("Expecting an outgoing set size of at most two, got " ++ format_d sz))
  else if (2 =? sz)%nat then
    let self := set_body (oset !!! 0) self in
    let self := set_implicand (oset !!! 1) self in
    Returns (set_varlist (find_variables (_varlist self) (oset !!! 0)) self)
  else
    let self := set_vardecl (oset !!! 0) self in
    let self := set_body (oset !!! 1) self in
    let self := set_implicand (oset !!! 2) self in
    vars ← call (init_scoped_variables (oset !!! 0));
    Returns (set_varlist vars self).

Definition init (self : BindLink) : outcome BindLink :=
  let t := get_type self in
  if negb (isA nameserver t BIND_LINK) then
    let tname := getTypeName nameserver t in
    Throws (InvalidParamException ("Expecting a BindLink, got " ++ tname))
  else
    self ← extract_variables self (_outgoing self);
    self ← call (unbundle_clauses (_body self) self);
    self ← call (common_init self);
    self ← call (setup_components self);
    Returns (set_redex_name "anonymous BindLink" self).

End Construction.

(** ** The constructors *)

Section Constructors.
Variable nameserver : NameServer.
Variable BIND_LINK : Type_.
Variable find_variables : Variables → Handle → Variables.
Variable init_scoped_variables : Handle → string + Variables.
Variable unbundle_clauses : Handle → BindLink → string + BindLink.
Variable common_init : BindLink → string + BindLink.
Variable setup_components : BindLink → string + BindLink.

(** The base-class constructors [PatternLink(hseq, t)] and
    [PatternLink(l)]: each throws, or leaves the object [init] then
    works on. *)
Variable PatternLink_of_seq : HandleSeq → Type_ → string + BindLink.
Variable PatternLink_of_link : Handle → string + BindLink.
(** The default of the type argument, declared in the header. *)
Variable default_type : Type_.

(** [BindLink(const HandleSeq& hseq, Type t)] *)
Definition BindLink_of_seq (hseq : HandleSeq) (t : Type_) : outcome BindLink :=
  self ← call (PatternLink_of_seq hseq t);
  init nameserver BIND_LINK find_variables init_scoped_variables
    unbundle_clauses common_init setup_components self.

(** [BindLink(const Link& l)] *)
Definition BindLink_of_link (l : Handle) : outcome BindLink :=
  self ← call (PatternLink_of_link l);
  init nameserver BIND_LINK find_variables init_scoped_variables
    unbundle_clauses common_init setup_components self.

(** [BindLink(vardecl, body, rewrite)] *)
Definition BindLink_of_vardecl_body_rewrite (vardecl body rewrite : Handle)
  : outcome BindLink :=
  BindLink_of_seq [vardecl; body; rewrite] default_type.

(** [BindLink(body, rewrite)] *)
Definition BindLink_of_body_rewrite (body rewrite : Handle) : outcome BindLink :=
  BindLink_of_seq [body; rewrite] default_type.

End Constructors.

(** ** Execution *)

(** A value is an atom or something else; [HandleCast] yields the null
    handle for whatever is not an atom. *)
Inductive ValuePtr : Type :=
| AtomValue (h : Handle)
| OtherValue (repr : string).

Definition HandleCast (v : ValuePtr) : Handle :=
  match v with
  | AtomValue h => h
  | OtherValue _ => UNDEFINED
  end.

(** Modelled from the spec: the matcher callback ([DefaultImplicator], not
    in this file).  It is built on a store, is given the rewrite
    template, and after a search holds the instantiated templates in the
    order the search reported them and the flag telling whether an
    optional clause was found present.  Its result set is the
    [std::set] of what was reported. *)
Record DefaultImplicator : Type := mkDefaultImplicator {
  impl_as : option AtomSpace;
  implicand : Handle;
  reported : list Handle;
  _optionals_present : bool
}.

Definition DefaultImplicator_new (as_ : option AtomSpace) : DefaultImplicator :=
  mkDefaultImplicator as_ UNDEFINED [] false.

Definition set_impl_implicand (h : Handle) (impl : DefaultImplicator) : DefaultImplicator :=
  mkDefaultImplicator (impl_as impl) h (reported impl) (_optionals_present impl).

Definition searched (r : list Handle * bool) (impl : DefaultImplicator) : DefaultImplicator :=
  mkDefaultImplicator (impl_as impl) (implicand impl) (fst r) (snd r).

Definition get_result_set (impl : DefaultImplicator) : HandleSet :=
  list_to_set (reported impl).

Definition optionals_present (impl : DefaultImplicator) : bool :=
  _optionals_present impl.

(** Modelled from the spec: [createUnorderedLink] (not in this file) wraps
    a set of handles into one link of the given type whose outgoing
    sequence is the set in its canonical order. *)
Definition createUnorderedLink (s : HandleSet) (t : Type_) : Handle :=
  Link t (elements s).

(** Modelled from the spec: [AtomSpace::add_atom] (not in this file) is a
    deduplicating insertion; it returns the identifier of the fragment
    already stored when there is a structurally identical one, and
    otherwise stores the fragment under a new identifier. *)
Definition add_atom (as_ : AtomSpace) (h : Handle) : FragmentId * AtomSpace :=
  match list_find (λ x, x = h) (atom_table as_) with
  | Some (i, _) => (i, as_)
  | None => (length (atom_table as_), mkAtomSpace (atom_table as_ ++ [h]))
  end.

Definition fetch (as_ : AtomSpace) (id : FragmentId) : option Handle :=
  atom_table as_ !! id.

Section Execution.
Variable SET_LINK : Type_.

(** [PatternLink::satisfy]: runs the search of this link's pattern with
    the given callback; it throws, or reports the instantiated
    templates it found and whether optional clauses were present. *)
Variable satisfy : BindLink → DefaultImplicator → string + (list Handle * bool).
(** [Instantiator::execute] of the callback's instantiator. *)
Variable inst_execute : option AtomSpace → Handle → bool → string + ValuePtr.

Definition do_execute (self : BindLink) (as_ : option AtomSpace) (silent : bool)
  : outcome HandleSet :=
  let as_ := match as_ with None => _atom_space self | Some _ => as_ end in
  let impl := DefaultImplicator_new as_ in
  let impl := set_impl_implicand (get_implicand self) impl in
  let do_conn_check := false in
  if do_conn_check && (0 =? length (_virtual self))%nat
     && (1 <? length (_components self))%nat
  then
    Throws (InvalidParamException
              "BindLink consists of multiple disconnected components!")
  else
    r ← call (satisfy self impl);
    let impl := searched r impl in
    if (0 <? size (get_result_set impl))%nat then
      Returns (get_result_set impl)
    else
      let pat := get_pattern self in
      if (0 =? length (mandatory pat))%nat && (0 <? length (optionals pat))%nat
         && negb (optionals_present impl)
      then
        v ← call (inst_execute (impl_as impl) (implicand impl) true);
        Returns ({[ HandleCast v ]} : HandleSet)
      else
        Returns (∅ : HandleSet).

Definition execute (self : BindLink) (as_ : option AtomSpace) (silent : bool)
  : outcome (FragmentId * AtomSpace) :=
  gs ← do_execute self as_ silent;
  let rewr := createUnorderedLink gs SET_LINK in
  match as_ with
  | None => NullDereference
  | Some store => Returns (add_atom store rewr)
  end.

End Execution.

(** ** Sample objects *)

Module Sample.
Definition NODE : Type_ := 1.
Definition VARIABLE_NODE : Type_ := 2.
Definition LINK : Type_ := 3.
Definition SET_LINK : Type_ := 4.
Definition PATTERN_LINK : Type_ := 5.
Definition BIND_LINK : Type_ := 6.
Definition ABSENT_LINK : Type_ := 7.

(** A flat hierarchy: a type is itself, and a bind link is a pattern link. *)
Definition nameserver : NameServer :=
  mkNameServer
    (λ t u, (t =? u)%nat || ((t =? BIND_LINK)%nat && (u =? PATTERN_LINK)%nat))
    (λ t, if (t =? BIND_LINK)%nat then "BindLink"
          else if (t =? SET_LINK)%nat then "SetLink" else "Atom").

Definition x : Handle := Node VARIABLE_NODE "$x".
Definition pizza : Handle := Node NODE "pizza".
Definition alice : Handle := Node NODE "alice".
Definition bob : Handle := Node NODE "bob".
Definition likes_x : Handle := Link LINK [x; pizza].
Definition absent_x : Handle := Link ABSENT_LINK [likes_x].

Definition no_variables : Variables := mkVariables [] [].

(** Scope helpers good enough for variable nodes. *)
Fixpoint free_variables (fuel : nat) (h : Handle) : list Handle :=
  match fuel, h with
  | S fuel, Link _ out => flat_map (free_variables fuel) out
  | _, Node t _ => if (t =? VARIABLE_NODE)%nat then [h] else []
  | _, _ => []
  end.
Definition find_variables (v : Variables) (h : Handle) : Variables :=
  mkVariables (remove_dups (varseq v ++ free_variables 8 h)) (typemap v).
Definition init_scoped_variables (h : Handle) : string + Variables :=
  match h with
  | Node t _ =>
      if (t =? VARIABLE_NODE)%nat then inr (mkVariables [h] [])
      else inl "Expecting a variable declaration"
  | _ => inl "Expecting a variable declaration"
  end.
Definition unbundle_clauses (body : Handle) (self : BindLink) : string + BindLink :=
  inr self.
Definition keep (self : BindLink) : string + BindLink := inr self.

(** An object as the base-class constructor leaves it. *)
Definition raw (t : Type_) (oset : HandleSeq) : BindLink :=
  mkBindLink t oset None UNDEFINED UNDEFINED UNDEFINED no_variables
    (mkPattern "" [] []) [] [].

(** Initialised links: one mandatory clause; one optional clause only. *)
Definition likes_query : BindLink :=
  mkBindLink BIND_LINK [likes_x; x] None UNDEFINED likes_x x
    (mkVariables [x] []) (mkPattern "anonymous BindLink" [likes_x] [])
    [] [[likes_x]].
Definition absent_query : BindLink :=
  mkBindLink BIND_LINK [absent_x; pizza] None UNDEFINED absent_x pizza
    (mkVariables [x] []) (mkPattern "anonymous BindLink" [] [absent_x])
    [] [[absent_x]].

(** A link whose pattern falls into two components sharing no variable. *)
Definition y : Handle := Node VARIABLE_NODE "$y".
Definition likes_y : Handle := Link LINK [y; bob].
Definition disconnected_query : BindLink :=
mkBindLink BIND_LINK [Link LINK [likes_x; likes_y]; x] None UNDEFINED
  (Link LINK [likes_x; likes_y]) x
  (mkVariables [x; y] []) (mkPattern "anonymous BindLink" [likes_x; likes_y] [])
  [] [[likes_x]; [likes_y]].

Definition empty_store : AtomSpace := mkAtomSpace [].
End Sample.

(** ** Construction: size check and decomposition *)

Example format_d_0 : format_d 0 = "0".
Proof. reflexivity. Qed.

Example format_d_12 : format_d 12 = "12".
Proof. reflexivity. Qed.

Example extract_variables_4 :
  extract_variables Sample.find_variables Sample.init_scoped_variables
    (Sample.raw Sample.BIND_LINK []) [Sample.x; Sample.x; Sample.x; Sample.x]
  = Throws (InvalidParamException
              "Expecting an outgoing set size of at most two, got 4").
Proof. reflexivity. Qed.

Section ConstructionFacts.
Variable nameserver : NameServer.
Variable BIND_LINK : Type_.
Variable find_variables : Variables → Handle → Variables.
Variable init_scoped_variables : Handle → string + Variables.
Variable unbundle_clauses : Handle → BindLink → string + BindLink.
Variable common_init : BindLink → string + BindLink.
Variable setup_components : BindLink → string + BindLink.

Let extract := extract_variables find_variables init_scoped_variables.

Lemma extract_variables_bad_size self oset :
  length oset < 2 ∨ 3 < length oset →
  extract self oset =
    Throws (InvalidParamException
              ("Expecting an outgoing set size of at most two, got "
               ++ format_d (length oset))).
Proof.
  intros Hsz. unfold extract, extract_variables.
  destruct (length oset <? 2)%nat eqn:H2; [done |].
  destruct (3 <? length oset)%nat eqn:H3; [done |].
  apply Nat.ltb_ge in H2, H3. lia.
Qed.

Lemma extract_variables_two self body rewrite :
  extract self [body; rewrite] =
    Returns (set_varlist (find_variables (_varlist self) body)
               (set_implicand rewrite (set_body body self))).
Proof. reflexivity. Qed.

Lemma extract_variables_three self vardecl body rewrite :
  extract self [vardecl; body; rewrite] =
    vars ← call (init_scoped_variables vardecl);
    Returns (set_varlist vars
               (set_implicand rewrite (set_body body (set_vardecl vardecl self)))).
Proof. reflexivity. Qed.

Lemma length_2_inv (oset : HandleSeq) :
  length oset = 2 → ∃ a b, oset = [a; b].
Proof. destruct oset as [| a [| b [| c l]]]; simpl; intros; try lia; eauto. Qed.

Lemma length_3_inv (oset : HandleSeq) :
  length oset = 3 → ∃ a b c, oset = [a; b; c].
Proof.
  destruct oset as [| a [| b [| c [| d l]]]]; simpl; intros; try lia; eauto.
Qed.

(** The size check.  An outgoing sequence of size 0, 1, or 4 and more
    makes [extract_variables] throw an [InvalidParamException] whose
    message ends with what [%d] prints for the size; on sizes 2 and 3 it
    does not throw that exception: size 2 returns, and size 3 returns or
    passes on what the declaration parser threw. *)
Theorem extract_variables_size_check self oset :
  (length oset < 2 ∨ 3 < length oset →
     extract_variables find_variables init_scoped_variables self oset =
       Throws (InvalidParamException
                 ("Expecting an outgoing set size of at most two, got "
                  ++ format_d (length oset))))
  ∧ (length oset = 2 →
       ∃ self', extract_variables find_variables init_scoped_variables self oset
                = Returns self')
  ∧ (length oset = 3 →
       ∀ msg, extract_variables find_variables init_scoped_variables self oset
              ≠ Throws (InvalidParamException msg)).
Proof.
  split; [apply extract_variables_bad_size |]. split.
  - intros (a & b & ->)%length_2_inv. rewrite extract_variables_two. eauto.
  - intros (a & b & c & ->)%length_3_inv msg.
    rewrite extract_variables_three.
    destruct (init_scoped_variables a); simpl; discriminate.
Qed.

(** C5. On size 2 the body is element 0, the implicand is element 1,
    no declaration is recorded and the scope is what [find_variables]
    discovers in the body.  On size 3 the declaration is element 0, the
    body element 1, the implicand element 2, and the scope is what
    [init_scoped_variables] parses from the declaration (if the parser
    throws, so does the construction). *)
Theorem extract_variables_decomposition self oset :
  (length oset = 2 →
     ∃ self',
       extract_variables find_variables init_scoped_variables self oset
         = Returns self'
       ∧ oset !! 0 = Some (_body self')
       ∧ oset !! 1 = Some (_implicand self')
       ∧ _vardecl self' = _vardecl self
       ∧ _varlist self' = find_variables (_varlist self) (_body self'))
  ∧ (length oset = 3 →
       ∀ vars, init_scoped_variables (oset !!! 0) = inr vars →
       ∃ self',
         extract_variables find_variables init_scoped_variables self oset
           = Returns self'
         ∧ oset !! 0 = Some (_vardecl self')
         ∧ oset !! 1 = Some (_body self')
         ∧ oset !! 2 = Some (_implicand self')
         ∧ _varlist self' = vars)
  ∧ (length oset = 3 →
       ∀ what, init_scoped_variables (oset !!! 0) = inl what →
       extract_variables find_variables init_scoped_variables self oset
         = Throws (Foreign what)).
Proof.
  split; [| split].
  - intros (a & b & ->)%length_2_inv. rewrite extract_variables_two.
    eexists. split; [reflexivity |]. done.
  - intros (a & b & c & ->)%length_3_inv vars Hvars.
    rewrite extract_variables_three. simpl in Hvars. rewrite Hvars.
    eexists. split; [reflexivity |]. done.
  - intros (a & b & c & ->)%length_3_inv what Hwhat.
    rewrite extract_variables_three. simpl in Hwhat. by rewrite Hwhat.
Qed.

Lemma extract_variables_message self oset msg :
  extract self oset = Throws (InvalidParamException msg) →
  msg = "Expecting an outgoing set size of at most two, got "
        ++ format_d (length oset).
Proof.
  unfold extract, extract_variables.
  destruct ((length oset <? 2)%nat || (3 <? length oset)%nat);
    [congruence |].
  destruct (2 =? length oset)%nat; [discriminate |].
  destruct (init_scoped_variables _); simpl; discriminate.
Qed.

(** C8. When the object's type is not a bind type, [init] throws an
    [InvalidParamException] whose message ends with the name of that
    type; when it is, [init] does not throw that exception. *)
Theorem init_type_check self :
  (isA nameserver (get_type self) BIND_LINK = false →
     init nameserver BIND_LINK find_variables init_scoped_variables
       unbundle_clauses common_init setup_components self
     = Throws (InvalidParamException
                 ("Expecting a BindLink, got "
                  ++ getTypeName nameserver (get_type self))))
  ∧ (isA nameserver (get_type self) BIND_LINK = true →
       ∀ tname,
         init nameserver BIND_LINK find_variables init_scoped_variables
           unbundle_clauses common_init setup_components self
         ≠ Throws (InvalidParamException ("Expecting a BindLink, got " ++ tname))).
Proof.
  unfold init. split; intros Hisa; rewrite Hisa; simpl; [done |].
  intros tname.
  destruct (extract_variables _ _ self (_outgoing self)) as [s1 | [msg | w] |] eqn:He;
    simpl; try discriminate.
  - destruct (unbundle_clauses _ s1) as [w | s2]; simpl; [discriminate |].
    destruct (common_init s2) as [w | s3]; simpl; [discriminate |].
    destruct (setup_components s3) as [w | s4]; simpl; discriminate.
  - apply extract_variables_message in He. rewrite He. simpl. discriminate.
Qed.

End ConstructionFacts.

Lemma extract_variables_size_check_witness :
  extract_variables Sample.find_variables Sample.init_scoped_variables
    (Sample.raw Sample.BIND_LINK [Sample.likes_x]) [Sample.likes_x]
  = Throws (InvalidParamException
              "Expecting an outgoing set size of at most two, got 1").
Proof.
  apply (extract_variables_size_check Sample.find_variables
           Sample.init_scoped_variables (Sample.raw Sample.BIND_LINK [Sample.likes_x])
           [Sample.likes_x]).
  simpl. lia.
Defined.

Lemma extract_variables_decomposition_witness :
  ∃ self',
    extract_variables Sample.find_variables Sample.init_scoped_variables
      (Sample.raw Sample.BIND_LINK [Sample.x; Sample.likes_x; Sample.x])
      [Sample.x; Sample.likes_x; Sample.x] = Returns self'
    ∧ [Sample.x; Sample.likes_x; Sample.x] !! 0 = Some (_vardecl self')
    ∧ [Sample.x; Sample.likes_x; Sample.x] !! 1 = Some (_body self')
    ∧ [Sample.x; Sample.likes_x; Sample.x] !! 2 = Some (_implicand self')
    ∧ _varlist self' = mkVariables [Sample.x] [].
Proof.
  apply (extract_variables_decomposition Sample.find_variables
           Sample.init_scoped_variables
           (Sample.raw Sample.BIND_LINK [Sample.x; Sample.likes_x; Sample.x])
           [Sample.x; Sample.likes_x; Sample.x]); reflexivity.
Defined.

Lemma init_type_check_witness :
  init Sample.nameserver Sample.BIND_LINK Sample.find_variables
    Sample.init_scoped_variables Sample.unbundle_clauses Sample.keep Sample.keep
    (Sample.raw Sample.SET_LINK [Sample.likes_x; Sample.x])
  = Throws (InvalidParamException "Expecting a BindLink, got SetLink").
Proof.
  apply (init_type_check Sample.nameserver Sample.BIND_LINK Sample.find_variables
           Sample.init_scoped_variables Sample.unbundle_clauses Sample.keep
           Sample.keep (Sample.raw Sample.SET_LINK [Sample.likes_x; Sample.x])).
  reflexivity.
Defined.

Example init_likes_query :
  init Sample.nameserver Sample.BIND_LINK Sample.find_variables
    Sample.init_scoped_variables Sample.unbundle_clauses Sample.keep Sample.keep
    (Sample.raw Sample.BIND_LINK [Sample.likes_x; Sample.x])
  = Returns (mkBindLink Sample.BIND_LINK [Sample.likes_x; Sample.x] None UNDEFINED
               Sample.likes_x Sample.x (mkVariables [Sample.x] [])
               (mkPattern "anonymous BindLink" [] []) [] []).
Proof. vm_compute. reflexivity. Qed.

(** ** Execution: the search and the absence rule *)

Module SampleSearch.
Import Sample.

(** A matcher for the sample links: [alice] likes pizza, whatever else
    the body asks for, and nothing is known to be absent. *)
Definition satisfy (self : BindLink) (impl : DefaultImplicator)
  : string + (list Handle * bool) :=
  if decide (_body self = absent_x) then inr ([], false)
  else inr ([alice], false).
(** The same matcher reporting a second, duplicate grounding first. *)
Definition satisfy_twice (self : BindLink) (impl : DefaultImplicator)
  : string + (list Handle * bool) :=
  if decide (_body self = likes_x) then inr ([bob; alice; bob], false)
  else inr ([], false).
Definition satisfy_reordered (self : BindLink) (impl : DefaultImplicator)
  : string + (list Handle * bool) :=
  if decide (_body self = likes_x) then inr ([alice; bob; bob], false)
  else inr ([], false).
(** A matcher that finds nothing, and one that fails. *)
Definition satisfy_nothing (self : BindLink) (impl : DefaultImplicator)
  : string + (list Handle * bool) := inr ([], false).
Definition satisfy_throws (self : BindLink) (impl : DefaultImplicator)
  : string + (list Handle * bool) := inl "malformed body".

(** An instantiator that returns a variable-free template as it is. *)
Definition inst_execute (as_ : option AtomSpace) (h : Handle) (silent : bool)
  : string + ValuePtr := inr (AtomValue h).
End SampleSearch.

(** [silent] is not read. *)
Lemma do_execute_silent_irrelevant satisfy inst_execute self as_ silent silent' :
  do_execute satisfy inst_execute self as_ silent
  = do_execute satisfy inst_execute self as_ silent'.
Proof. reflexivity. Qed.

(** The callback [do_execute] hands to the search: built on the explicit
    store, or on the link's own when the pointer is null, and carrying
    the link's implicand. *)
Definition query_callback (self : BindLink) (as_ : option AtomSpace) : DefaultImplicator :=
  mkDefaultImplicator
    (match as_ with None => _atom_space self | Some _ => as_ end)
    (get_implicand self) [] false.

Section ExecutionFacts.
Variable SET_LINK : Type_.
Variable satisfy : BindLink → DefaultImplicator → string + (list Handle * bool).
Variable inst_execute : option AtomSpace → Handle → bool → string + ValuePtr.

Lemma size_list_to_set_nil (found : list Handle) :
  size (list_to_set found : HandleSet) = 0 ↔ found = [].
Proof.
  split; [| by intros ->].
  intros Hsz%size_empty_inv. destruct found as [| h found]; [done |].
  set_solver.
Qed.

Lemma do_execute_unfold self as_ silent :
  do_execute satisfy inst_execute self as_ silent =
    r ← call (satisfy self (query_callback self as_));
    let impl := searched r (query_callback self as_) in
    if (0 <? size (get_result_set impl))%nat then Returns (get_result_set impl)
    else if (0 =? length (mandatory (get_pattern self)))%nat
            && (0 <? length (optionals (get_pattern self)))%nat
            && negb (optionals_present impl)
         then v ← call (inst_execute (impl_as impl) (implicand impl) true);
              Returns {[ HandleCast v ]}
         else Returns ∅.
Proof. reflexivity. Qed.

Lemma do_execute_found self as_ silent found present :
  satisfy self (query_callback self as_) = inr (found, present) →
  found ≠ [] →
  do_execute satisfy inst_execute self as_ silent = Returns (list_to_set found).
Proof.
  intros Hsat Hne. rewrite do_execute_unfold, Hsat. simpl.
  unfold get_result_set. simpl.
  destruct (0 <? size (list_to_set found : HandleSet))%nat eqn:Hsz; [done |].
  apply Nat.ltb_ge in Hsz.
  assert (size (list_to_set found : HandleSet) = 0) as H0 by lia.
  by apply size_list_to_set_nil in H0.
Qed.

Lemma do_execute_no_match self as_ silent present :
  satisfy self (query_callback self as_) = inr ([], present) →
  do_execute satisfy inst_execute self as_ silent =
    if (0 =? length (mandatory (get_pattern self)))%nat
       && (0 <? length (optionals (get_pattern self)))%nat
       && negb present
    then
      v ← call (inst_execute (impl_as (query_callback self as_))
                  (get_implicand self) true);
      Returns {[ HandleCast v ]}
    else Returns ∅.
Proof.
  intros Hsat. by rewrite do_execute_unfold, Hsat.
Qed.

Lemma do_execute_search_throws self as_ silent what :
  satisfy self (query_callback self as_) = inl what →
  do_execute satisfy inst_execute self as_ silent = Throws (Foreign what).
Proof.
  intros Hsat. by rewrite do_execute_unfold, Hsat.
Qed.

Lemma do_execute_throws_foreign self as_ silent e :
  do_execute satisfy inst_execute self as_ silent = Throws e →
  ∃ what, e = Foreign what.
Proof.
  rewrite do_execute_unfold.
  destruct (satisfy self (query_callback self as_)) as [w | [found present]];
    simpl; [intros [= <-]; eauto |].
  destruct (0 <? size _)%nat; [discriminate |].
  destruct (_ && _); [| discriminate].
  destruct (inst_execute _ _ true) as [w | v]; simpl;
    [intros [= <-]; eauto | discriminate].
Qed.

(** C1, as the code has it.  When the search reports no grounding, the
    pattern has no mandatory clause and at least one optional clause,
    and no optional clause was found present, [do_execute] runs the
    instantiator on the implicand, on the resolved store and silently:
    when the instantiator returns an atom, [do_execute] returns the
    singleton set holding exactly that atom; when the instantiator
    throws, the exception leaves [do_execute]. *)
Theorem do_execute_absence_query self as_ silent :
  satisfy self (query_callback self as_) = inr ([], false) →
  length (mandatory (get_pattern self)) = 0 →
  0 < length (optionals (get_pattern self)) →
  (∀ h,
     inst_execute (impl_as (query_callback self as_)) (get_implicand self) true
       = inr (AtomValue h) →
     do_execute satisfy inst_execute self as_ silent = Returns {[ h ]})
  ∧ (∀ what,
       inst_execute (impl_as (query_callback self as_)) (get_implicand self) true
         = inl what →
       do_execute satisfy inst_execute self as_ silent = Throws (Foreign what)).
Proof.
  intros Hsat Hm Ho.
  rewrite (do_execute_no_match _ _ _ _ Hsat), Hm.
  destruct (optionals (get_pattern self)) as [| o os]; simpl in *; [lia |].
  split; [intros h Hv | intros what Hv]; by rewrite Hv.
Qed.

(** In the same situation an instantiation that is not an atom leaves
    the null handle in the set. *)
Lemma do_execute_absence_non_atom self as_ silent repr :
  satisfy self (query_callback self as_) = inr ([], false) →
  length (mandatory (get_pattern self)) = 0 →
  0 < length (optionals (get_pattern self)) →
  inst_execute (impl_as (query_callback self as_)) (get_implicand self) true
    = inr (OtherValue repr) →
  do_execute satisfy inst_execute self as_ silent = Returns {[ UNDEFINED ]}.
Proof.
  intros Hsat Hm Ho Hv.
  rewrite (do_execute_no_match _ _ _ _ Hsat), Hm, Hv.
  destruct (optionals (get_pattern self)); simpl in *; [lia | done].
Qed.

(** C2. When the search reports no grounding and the pattern has a
    mandatory clause, or has no optional clause, or an optional clause
    was found present, [do_execute] returns the empty set; it does
    not throw. *)
Theorem do_execute_no_results self as_ silent present :
  satisfy self (query_callback self as_) = inr ([], present) →
  0 < length (mandatory (get_pattern self))
  ∨ length (optionals (get_pattern self)) = 0
  ∨ present = true →
  do_execute satisfy inst_execute self as_ silent = Returns ∅.
Proof.
  intros Hsat Hcase. rewrite (do_execute_no_match _ _ _ _ Hsat).
  destruct Hcase as [Hm | [Ho | ->]].
  - destruct (mandatory (get_pattern self)); simpl in *; [lia | done].
  - rewrite Ho. simpl. by rewrite andb_false_r.
  - simpl. by rewrite andb_false_r.
Qed.

(** C3, as the code has it.  Whatever [silent] is, an exception thrown
    by the search leaves [do_execute] uncaught; [silent] does not
    change the outcome of [do_execute]. *)
Theorem do_execute_errors_propagate self as_ silent what :
  satisfy self (query_callback self as_) = inl what →
  do_execute satisfy inst_execute self as_ silent = Throws (Foreign what)
  ∧ do_execute satisfy inst_execute self as_ (negb silent) = Throws (Foreign what).
Proof. intros Hsat. split; by apply do_execute_search_throws. Qed.

(** C6, as the code has it.  The search runs on the explicit store
    when one is given and on the link's own store otherwise, and its
    groundings are returned; when there is neither, [do_execute]
    throws nothing of its own and the search runs on the null store. *)
Theorem do_execute_store_resolution self silent found present :
  found ≠ [] →
  (∀ store,
     satisfy self (mkDefaultImplicator (Some store) (get_implicand self) [] false)
       = inr (found, present) →
     do_execute satisfy inst_execute self (Some store) silent
       = Returns (list_to_set found))
  ∧ (satisfy self
       (mkDefaultImplicator (_atom_space self) (get_implicand self) [] false)
       = inr (found, present) →
     do_execute satisfy inst_execute self None silent
       = Returns (list_to_set found))
  ∧ (_atom_space self = None →
     ∀ msg, do_execute satisfy inst_execute self None silent
            ≠ Throws (InvalidParamException msg)).
Proof.
  intros Hne. split; [| split].
  - intros store Hsat. by eapply do_execute_found.
  - intros Hsat. by eapply do_execute_found.
  - intros _ msg Hthrow.
    by apply do_execute_throws_foreign in Hthrow as [what ?].
Qed.

(** C7. Whatever the pattern, its virtual clauses and its components,
    [do_execute] never throws the connectivity exception, nor any other
    exception of its own: the guard is the constant [false]. *)
Theorem do_execute_no_connectivity_error self as_ silent msg :
  do_execute satisfy inst_execute self as_ silent
    ≠ Throws (InvalidParamException msg).
Proof.
  intros Hthrow. by apply do_execute_throws_foreign in Hthrow as [what ?].
Qed.

End ExecutionFacts.

Lemma list_to_set_one (h : Handle) : (list_to_set [h] : HandleSet) = {[ h ]}.
Proof. simpl. apply (right_id_L ∅ (∪)). Qed.

Example do_execute_likes :
  do_execute SampleSearch.satisfy SampleSearch.inst_execute
    Sample.likes_query (Some Sample.empty_store) false
  = Returns {[ Sample.alice ]}.
Proof.
  rewrite <- list_to_set_one.
  by apply (do_execute_found _ _ _ _ _ [Sample.alice] false).
Qed.

Example do_execute_absent :
  do_execute SampleSearch.satisfy SampleSearch.inst_execute
    Sample.absent_query (Some Sample.empty_store) false
  = Returns {[ Sample.pizza ]}.
Proof.
  by rewrite (do_execute_no_match _ _ _ _ _ false) by reflexivity.
Qed.

Example do_execute_nothing :
  do_execute SampleSearch.satisfy_nothing SampleSearch.inst_execute
    Sample.likes_query (Some Sample.empty_store) false
  = Returns ∅.
Proof.
  by rewrite (do_execute_no_match _ _ _ _ _ false) by reflexivity.
Qed.

Example do_execute_disconnected :
  length (_virtual Sample.disconnected_query) = 0
  ∧ length (_components Sample.disconnected_query) = 2
  ∧ do_execute SampleSearch.satisfy SampleSearch.inst_execute
      Sample.disconnected_query (Some Sample.empty_store) false
    = Returns {[ Sample.alice ]}.
Proof.
  split; [reflexivity |]. split; [reflexivity |].
  rewrite <- list_to_set_one.
  by apply (do_execute_found _ _ _ _ _ [Sample.alice] false).
Qed.

Lemma do_execute_absence_query_witness :
  do_execute SampleSearch.satisfy SampleSearch.inst_execute
    Sample.absent_query (Some Sample.empty_store) false
  = Returns {[ Sample.pizza ]}.
Proof.
  apply (proj1 (do_execute_absence_query SampleSearch.satisfy
                  SampleSearch.inst_execute Sample.absent_query
                  (Some Sample.empty_store) false
                  ltac:(reflexivity) ltac:(reflexivity) ltac:(simpl; lia))
           Sample.pizza).
  reflexivity.
Defined.

(** C1, as the spec has it, fails: the search reports nothing, the
    pattern has no mandatory clause and one optional clause, none was
    found present, and [do_execute] throws what the instantiator threw
    instead of returning a singleton. *)
Lemma do_execute_absence_counterexample :
  SampleSearch.satisfy Sample.absent_query
    (query_callback Sample.absent_query (Some Sample.empty_store))
  = inr ([], false)
  ∧ length (mandatory (get_pattern Sample.absent_query)) = 0
  ∧ length (optionals (get_pattern Sample.absent_query)) = 1
  ∧ do_execute SampleSearch.satisfy (λ _ _ _, inl "not executable")
      Sample.absent_query (Some Sample.empty_store) false
    = Throws (Foreign "not executable").
Proof. repeat split. Qed.

Lemma do_execute_no_results_witness :
  do_execute SampleSearch.satisfy_nothing SampleSearch.inst_execute
    Sample.likes_query (Some Sample.empty_store) false = Returns ∅.
Proof.
  apply (do_execute_no_results SampleSearch.satisfy_nothing
           SampleSearch.inst_execute Sample.likes_query
           (Some Sample.empty_store) false false).
  - reflexivity.
  - left. simpl. lia.
Defined.

(** C3, as the spec has it, fails: with [silent] set and a search that
    throws, [do_execute] throws too, which is not what it does on a
    search that finds nothing. *)
Lemma do_execute_silent_counterexample :
  do_execute SampleSearch.satisfy_throws SampleSearch.inst_execute
    Sample.likes_query (Some Sample.empty_store) true
    = Throws (Foreign "malformed body")
  ∧ do_execute SampleSearch.satisfy_nothing SampleSearch.inst_execute
      Sample.likes_query (Some Sample.empty_store) true
    = Returns ∅.
Proof. split; reflexivity. Qed.

Lemma do_execute_errors_propagate_witness :
  do_execute SampleSearch.satisfy_throws SampleSearch.inst_execute
    Sample.likes_query (Some Sample.empty_store) true
    = Throws (Foreign "malformed body")
  ∧ do_execute SampleSearch.satisfy_throws SampleSearch.inst_execute
      Sample.likes_query (Some Sample.empty_store) (negb true)
    = Throws (Foreign "malformed body").
Proof.
  apply (do_execute_errors_propagate SampleSearch.satisfy_throws
           SampleSearch.inst_execute Sample.likes_query
           (Some Sample.empty_store) true "malformed body").
  reflexivity.
Defined.

(** C6, as the spec has it, fails: with no explicit store and no store
    of the link's own, [do_execute] still returns what the search found. *)
Lemma do_execute_no_store_counterexample :
  _atom_space Sample.likes_query = None
  ∧ do_execute SampleSearch.satisfy SampleSearch.inst_execute
      Sample.likes_query None false
    = Returns {[ Sample.alice ]}.
Proof.
  split; [reflexivity |]. rewrite <- list_to_set_one.
  by apply (do_execute_found _ _ _ _ _ [Sample.alice] false).
Qed.

Lemma do_execute_store_resolution_witness :
  do_execute SampleSearch.satisfy SampleSearch.inst_execute
    Sample.likes_query (Some Sample.empty_store) false
  = Returns (list_to_set [Sample.alice]).
Proof.
  apply (do_execute_store_resolution SampleSearch.satisfy
           SampleSearch.inst_execute Sample.likes_query false
           [Sample.alice] false).
  - discriminate.
  - reflexivity.
Defined.

(** ** Materialisation: the result set in the store *)

Lemma add_atom_fetch store h :
  fetch (add_atom store h).2 (add_atom store h).1 = Some h.
Proof.
  unfold add_atom, fetch.
  destruct (list_find _ (atom_table store)) as [[i y] |] eqn:Hfind; simpl.
  - by apply list_find_Some in Hfind as (Hi & -> & _).
  - by rewrite list_lookup_middle.
Qed.

Lemma add_atom_keeps store h i y :
  fetch store i = Some y → fetch (add_atom store h).2 i = Some y.
Proof.
  unfold add_atom, fetch.
  destruct (list_find _ (atom_table store)) as [[j z] |]; simpl; [done |].
  intros Hi. by apply lookup_app_l_Some.
Qed.

Lemma add_atom_again store h :
  add_atom (add_atom store h).2 h = add_atom store h.
Proof.
  unfold add_atom at 2 3.
  destruct (list_find _ (atom_table store)) as [[i y] |] eqn:Hfind; simpl.
  - unfold add_atom. by rewrite Hfind.
  - unfold add_atom. simpl.
    assert (list_find (λ x, x = h) (atom_table store ++ [h])
            = Some (length (atom_table store), h)) as ->; [| done].
    apply list_find_Some. split; [by rewrite list_lookup_middle |].
    split; [done |]. intros j z Hj Hlt.
    apply list_find_None in Hfind.
    rewrite lookup_app_l in Hj by done.
    by apply (Forall_lookup_1 _ _ _ _ Hfind Hj).
Qed.

Lemma add_atom_size store h :
  length (atom_table (add_atom (add_atom store h).2 h).2)
  = length (atom_table (add_atom store h).2).
Proof. by rewrite add_atom_again. Qed.

(** The table stays free of duplicates. *)
Lemma add_atom_NoDup store h :
  NoDup (atom_table store) → NoDup (atom_table (add_atom store h).2).
Proof.
  intros Hnd. unfold add_atom.
  destruct (list_find _ (atom_table store)) as [[i y] |] eqn:Hfind; simpl; [done |].
  apply NoDup_app. split; [done |]. split; [| apply NoDup_singleton].
  intros x Hx Hxh%list_elem_of_singleton.
  apply list_find_None in Hfind.
  by apply (proj1 (Forall_forall _ _) Hfind x Hx).
Qed.

Example execute_likes :
  execute Sample.SET_LINK SampleSearch.satisfy SampleSearch.inst_execute
    Sample.likes_query (Some Sample.empty_store) false
  = Returns (0, mkAtomSpace [Link Sample.SET_LINK [Sample.alice]]).
Proof. vm_compute. reflexivity. Qed.

Example execute_nothing :
  execute Sample.SET_LINK SampleSearch.satisfy_nothing SampleSearch.inst_execute
    Sample.likes_query (Some Sample.empty_store) false
  = Returns (0, mkAtomSpace [Link Sample.SET_LINK []]).
Proof. vm_compute. reflexivity. Qed.

(** [execute] calls [add_atom] through the pointer it was given, not
    through the store [do_execute] fell back to. *)
Lemma execute_null_store SET_LINK satisfy inst_execute self silent gs :
  do_execute satisfy inst_execute self None silent = Returns gs →
  execute SET_LINK satisfy inst_execute self None silent = NullDereference.
Proof. intros Hgs. unfold execute. by rewrite Hgs. Qed.

Section MaterialisationFacts.
Variable SET_LINK : Type_.
Variable inst_execute : option AtomSpace → Handle → bool → string + ValuePtr.

Lemma do_execute_same_report satisfy1 satisfy2 self as_ silent found1 found2 present :
  satisfy1 self (query_callback self as_) = inr (found1, present) →
  satisfy2 self (query_callback self as_) = inr (found2, present) →
  found1 ≡ₚ found2 →
  do_execute satisfy1 inst_execute self as_ silent
  = do_execute satisfy2 inst_execute self as_ silent.
Proof.
  intros H1 H2 Hperm. rewrite !do_execute_unfold, H1, H2. simpl.
  unfold get_result_set, optionals_present. simpl.
  by rewrite (list_to_set_perm_L (C:=HandleSet) _ _ Hperm).
Qed.

(** C9. Reports that are permutations of one another give the same
    aggregate and the same identifier in the same store, through
    [execute] too; inserting the aggregate a second time returns the
    identifier of the first insertion and leaves the store as it was. *)
Theorem materialize_order_independent_idempotent
    satisfy1 satisfy2 self store silent found1 found2 present :
  found1 ≡ₚ found2 →
  createUnorderedLink (list_to_set found1) SET_LINK
    = createUnorderedLink (list_to_set found2) SET_LINK
  ∧ add_atom store (createUnorderedLink (list_to_set found1) SET_LINK)
    = add_atom store (createUnorderedLink (list_to_set found2) SET_LINK)
  ∧ add_atom
      (add_atom store (createUnorderedLink (list_to_set found1) SET_LINK)).2
      (createUnorderedLink (list_to_set found2) SET_LINK)
    = add_atom store (createUnorderedLink (list_to_set found1) SET_LINK)
  ∧ (satisfy1 self (query_callback self (Some store)) = inr (found1, present) →
     satisfy2 self (query_callback self (Some store)) = inr (found2, present) →
     execute SET_LINK satisfy1 inst_execute self (Some store) silent
     = execute SET_LINK satisfy2 inst_execute self (Some store) silent).
Proof.
  intros Hperm.
  rewrite <- (list_to_set_perm_L (C:=HandleSet) _ _ Hperm).
  split; [done |]. split; [done |]. split; [apply add_atom_again |].
  intros H1 H2. unfold execute.
  by rewrite (do_execute_same_report _ _ _ _ _ _ _ _ H1 H2 Hperm).
Qed.

Variable satisfy : BindLink → DefaultImplicator → string + (list Handle * bool).

(** X12. Whenever [do_execute] returns a set, empty or not, [execute]
    called with a store returns the identifier under which the store
    now holds the [SET_LINK] link of that set; for the empty set this
    is the link with no outgoing handle.  What the store held stays. *)
Theorem execute_inserts_set_link self store silent gs :
  do_execute satisfy inst_execute self (Some store) silent = Returns gs →
  ∃ id store',
    execute SET_LINK satisfy inst_execute self (Some store) silent
      = Returns (id, store')
    ∧ (id, store') = add_atom store (createUnorderedLink gs SET_LINK)
    ∧ fetch store' id = Some (createUnorderedLink gs SET_LINK)
    ∧ (gs = ∅ → fetch store' id = Some (Link SET_LINK []))
    ∧ (∀ i h, fetch store i = Some h → fetch store' i = Some h).
Proof.
  intros Hgs. unfold execute. rewrite Hgs. simpl.
  destruct (add_atom store (createUnorderedLink gs SET_LINK)) as [id store'] eqn:Hadd.
  exists id, store'. split; [done |]. split; [done |].
  pose proof (add_atom_fetch store (createUnorderedLink gs SET_LINK)) as Hfetch.
  rewrite Hadd in Hfetch. simpl in Hfetch.
  split; [done |]. split.
  - intros ->. rewrite Hfetch. unfold createUnorderedLink.
    by rewrite elements_empty.
  - intros i h Hi.
    pose proof (add_atom_keeps store (createUnorderedLink gs SET_LINK) i h Hi) as Hk.
    by rewrite Hadd in Hk.
Qed.

End MaterialisationFacts.

Lemma materialize_order_independent_idempotent_witness :
  execute Sample.SET_LINK SampleSearch.satisfy_twice SampleSearch.inst_execute
    Sample.likes_query (Some Sample.empty_store) false
  = execute Sample.SET_LINK SampleSearch.satisfy_reordered SampleSearch.inst_execute
      Sample.likes_query (Some Sample.empty_store) false.
Proof.
  apply (materialize_order_independent_idempotent Sample.SET_LINK
           SampleSearch.inst_execute SampleSearch.satisfy_twice
           SampleSearch.satisfy_reordered Sample.likes_query Sample.empty_store
           false [Sample.bob; Sample.alice; Sample.bob]
           [Sample.alice; Sample.bob; Sample.bob] false).
  - apply Permutation_swap.
  - reflexivity.
  - reflexivity.
Defined.

Lemma execute_inserts_set_link_witness :
  ∃ id store',
    execute Sample.SET_LINK SampleSearch.satisfy_nothing SampleSearch.inst_execute
      Sample.likes_query (Some Sample.empty_store) false = Returns (id, store')
    ∧ (id, store') = add_atom Sample.empty_store (createUnorderedLink ∅ Sample.SET_LINK)
    ∧ fetch store' id = Some (createUnorderedLink ∅ Sample.SET_LINK)
    ∧ ((∅ : HandleSet) = ∅ → fetch store' id = Some (Link Sample.SET_LINK []))
    ∧ (∀ i h, fetch Sample.empty_store i = Some h → fetch store' i = Some h).
Proof.
  apply (execute_inserts_set_link Sample.SET_LINK SampleSearch.inst_execute
           SampleSearch.satisfy_nothing Sample.likes_query Sample.empty_store
           false ∅).
  reflexivity.
Defined.

(** ** Further properties of construction *)

Section MoreConstructionFacts.
Variable nameserver : NameServer.
Variable BIND_LINK : Type_.
Variable find_variables : Variables → Handle → Variables.
Variable init_scoped_variables : Handle → string + Variables.
Variable unbundle_clauses : Handle → BindLink → string + BindLink.
Variable common_init : BindLink → string + BindLink.
Variable setup_components : BindLink → string + BindLink.

Lemma extract_variables_throws_size self oset msg :
  extract_variables find_variables init_scoped_variables self oset
    = Throws (InvalidParamException msg) →
  length oset < 2 ∨ 3 < length oset.
Proof.
  unfold extract_variables.
  destruct ((length oset <? 2)%nat || (3 <? length oset)%nat) eqn:Hsz.
  { intros _. apply orb_true_iff in Hsz as [H | H]; apply Nat.ltb_lt in H; auto. }
  destruct (2 =? length oset)%nat; [discriminate |].
  destruct (init_scoped_variables _); simpl; discriminate.
Qed.

Lemma extract_variables_returns_size self oset self' :
  extract_variables find_variables init_scoped_variables self oset = Returns self' →
  length oset = 2 ∨ length oset = 3.
Proof.
  unfold extract_variables.
  destruct ((length oset <? 2)%nat || (3 <? length oset)%nat) eqn:Hsz;
    [discriminate |].
  intros _. apply orb_false_iff in Hsz as [H2 H3].
  apply Nat.ltb_ge in H2, H3. lia.
Qed.

Lemma init_throws_own_inv self msg :
  init nameserver BIND_LINK find_variables init_scoped_variables
    unbundle_clauses common_init setup_components self
    = Throws (InvalidParamException msg) →
  (isA nameserver (get_type self) BIND_LINK = false
   ∧ msg = "Expecting a BindLink, got " ++ getTypeName nameserver (get_type self))
  ∨ (isA nameserver (get_type self) BIND_LINK = true
     ∧ (length (_outgoing self) < 2 ∨ 3 < length (_outgoing self))
     ∧ msg = "Expecting an outgoing set size of at most two, got "
             ++ format_d (length (_outgoing self))).
Proof.
  unfold init.
  destruct (isA nameserver (get_type self) BIND_LINK) eqn:Hisa; simpl.
  - destruct (extract_variables _ _ self (_outgoing self))
      as [s1 | [m | w] |] eqn:He; simpl; try discriminate.
    + destruct (unbundle_clauses _ s1) as [w | s2]; simpl; [discriminate |].
      destruct (common_init s2) as [w | s3]; simpl; [discriminate |].
      destruct (setup_components s3) as [w | s4]; simpl; discriminate.
    + intros [= <-]. right. split; [done |].
      split; [by eapply extract_variables_throws_size |].
      by eapply extract_variables_message.
  - intros [= <-]. by left.
Qed.

(** X1. A successful [extract_variables] writes the declaration, the
    body, the implicand and the scope only: type, outgoing set, store,
    pattern, virtual clauses and components are as before. *)
Theorem extract_variables_frame self oset self' :
  extract_variables find_variables init_scoped_variables self oset = Returns self' →
  _type self' = _type self
  ∧ _outgoing self' = _outgoing self
  ∧ _atom_space self' = _atom_space self
  ∧ _pat self' = _pat self
  ∧ _virtual self' = _virtual self
  ∧ _components self' = _components self.
Proof.
  unfold extract_variables.
  destruct (_ || _); [discriminate |].
  destruct (2 =? length oset)%nat.
  - by intros [= <-].
  - destruct (init_scoped_variables _); simpl; [discriminate |].
    by intros [= <-].
Qed.

Lemma extract_variables_not_null_dereference self oset :
  extract_variables find_variables init_scoped_variables self oset ≠ NullDereference.
Proof.
  unfold extract_variables.
  destruct (_ || _); [done |].
  destruct (2 =? length oset)%nat; [done |].
  by destruct (init_scoped_variables _).
Qed.

(** X2. [extract_variables] returns exactly when the outgoing set has
    size 2, or has size 3 and the declaration parser returns on its
    first element; in every other case it throws. *)
Theorem extract_variables_returns_iff self oset :
  ((∃ self',
      extract_variables find_variables init_scoped_variables self oset = Returns self')
   ↔ length oset = 2
     ∨ (length oset = 3 ∧ ∃ vars, init_scoped_variables (oset !!! 0) = inr vars))
  ∧ (¬ (length oset = 2
        ∨ (length oset = 3 ∧ ∃ vars, init_scoped_variables (oset !!! 0) = inr vars)) →
     ∃ e, extract_variables find_variables init_scoped_variables self oset = Throws e).
Proof.
  assert ((∃ self',
      extract_variables find_variables init_scoped_variables self oset = Returns self')
   ↔ length oset = 2
     ∨ (length oset = 3 ∧ ∃ vars, init_scoped_variables (oset !!! 0) = inr vars))
    as Hiff; [| split; [exact Hiff |]].
  2: { intros Hno.
       pose proof (extract_variables_not_null_dereference self oset) as Hnn.
       destruct (extract_variables find_variables init_scoped_variables self oset)
         as [self' | e |] eqn:He; [| eauto | done].
       exfalso. apply Hno, Hiff. eauto. }
  split.
  - intros [self' Hret].
    destruct (extract_variables_returns_size _ _ _ Hret) as [H2 | H3]; [by left |].
    right. split; [done |].
    apply length_3_inv in H3 as (a & b & c & ->).
    rewrite extract_variables_three in Hret. simpl.
    destruct (init_scoped_variables a) as [w | vars]; [discriminate | eauto].
  - intros [H2 | [H3 [vars Hvars]]].
    + apply length_2_inv in H2 as (a & b & ->).
      rewrite extract_variables_two. eauto.
    + apply length_3_inv in H3 as (a & b & c & ->).
      rewrite extract_variables_three. simpl in Hvars. rewrite Hvars. eauto.
Qed.

(** X3. [init] returns only on an object of a bind type with two or
    three outgoing handles, and what it returns carries the redex name
    "anonymous BindLink". *)
Theorem init_returns_only_valid self self' :
  init nameserver BIND_LINK find_variables init_scoped_variables
    unbundle_clauses common_init setup_components self = Returns self' →
  isA nameserver (get_type self) BIND_LINK = true
  ∧ (length (_outgoing self) = 2 ∨ length (_outgoing self) = 3)
  ∧ redex_name (_pat self') = "anonymous BindLink".
Proof.
  unfold init.
  destruct (isA nameserver (get_type self) BIND_LINK); simpl; [| discriminate].
  destruct (extract_variables _ _ self (_outgoing self)) as [s1 | e |] eqn:He;
    simpl; try discriminate.
  destruct (unbundle_clauses _ s1) as [w | s2]; simpl; [discriminate |].
  destruct (common_init s2) as [w | s3]; simpl; [discriminate |].
  destruct (setup_components s3) as [w | s4]; simpl; [discriminate |].
  intros [= <-]. split; [done |]. split; [| done].
  by eapply extract_variables_returns_size.
Qed.

(** X4. The exceptions [init] throws itself are exactly two: the type
    message, when the type is not a bind type (whatever the outgoing
    set is), and the size message, when the type is a bind type and the
    outgoing set has fewer than two or more than three handles. *)
Theorem init_own_exceptions self msg :
  init nameserver BIND_LINK find_variables init_scoped_variables
    unbundle_clauses common_init setup_components self
    = Throws (InvalidParamException msg)
  ↔ (isA nameserver (get_type self) BIND_LINK = false
     ∧ msg = "Expecting a BindLink, got " ++ getTypeName nameserver (get_type self))
    ∨ (isA nameserver (get_type self) BIND_LINK = true
       ∧ (length (_outgoing self) < 2 ∨ 3 < length (_outgoing self))
       ∧ msg = "Expecting an outgoing set size of at most two, got "
               ++ format_d (length (_outgoing self))).
Proof.
  split; [apply init_throws_own_inv |].
  intros [[Hisa ->] | (Hisa & Hsz & ->)]; unfold init; rewrite Hisa; simpl; [done |].
  by rewrite (extract_variables_bad_size _ _ _ _ Hsz).
Qed.

Variable PatternLink_of_seq : HandleSeq → Type_ → string + BindLink.
Variable default_type : Type_.

(** X5. When the base-class constructor leaves the given handles as the
    outgoing set, the constructor from a declaration, a body and a
    rewrite and the constructor from a body and a rewrite never throw
    the size message: the only exception of [init] they can throw is the
    type message. *)
Theorem BindLink_of_handles_no_size_error vardecl body rewrite :
  (∀ self msg,
     PatternLink_of_seq [vardecl; body; rewrite] default_type = inr self →
     _outgoing self = [vardecl; body; rewrite] →
     BindLink_of_vardecl_body_rewrite nameserver BIND_LINK find_variables
       init_scoped_variables unbundle_clauses common_init setup_components
       PatternLink_of_seq default_type vardecl body rewrite
       = Throws (InvalidParamException msg) →
     isA nameserver (get_type self) BIND_LINK = false
     ∧ msg = "Expecting a BindLink, got " ++ getTypeName nameserver (get_type self))
  ∧ (∀ self msg,
       PatternLink_of_seq [body; rewrite] default_type = inr self →
       _outgoing self = [body; rewrite] →
       BindLink_of_body_rewrite nameserver BIND_LINK find_variables
         init_scoped_variables unbundle_clauses common_init setup_components
         PatternLink_of_seq default_type body rewrite
         = Throws (InvalidParamException msg) →
       isA nameserver (get_type self) BIND_LINK = false
       ∧ msg = "Expecting a BindLink, got " ++ getTypeName nameserver (get_type self)).
Proof.
  split; intros self msg Hbase Hout;
    unfold BindLink_of_vardecl_body_rewrite, BindLink_of_body_rewrite,
      BindLink_of_seq; rewrite Hbase; simpl;
    intros [Htype | (_ & Hsz & _)]%init_throws_own_inv; try done;
    rewrite Hout in Hsz; simpl in Hsz; lia.
Qed.

End MoreConstructionFacts.

Lemma extract_variables_frame_witness :
  _type (set_varlist (mkVariables [Sample.x] [])
           (set_implicand Sample.x (set_body Sample.likes_x
              (Sample.raw Sample.BIND_LINK [Sample.likes_x; Sample.x]))))
    = _type (Sample.raw Sample.BIND_LINK [Sample.likes_x; Sample.x])
  ∧ _outgoing (set_varlist (mkVariables [Sample.x] [])
                 (set_implicand Sample.x (set_body Sample.likes_x
                    (Sample.raw Sample.BIND_LINK [Sample.likes_x; Sample.x]))))
    = _outgoing (Sample.raw Sample.BIND_LINK [Sample.likes_x; Sample.x])
  ∧ _atom_space (set_varlist (mkVariables [Sample.x] [])
                   (set_implicand Sample.x (set_body Sample.likes_x
                      (Sample.raw Sample.BIND_LINK [Sample.likes_x; Sample.x]))))
    = _atom_space (Sample.raw Sample.BIND_LINK [Sample.likes_x; Sample.x])
  ∧ _pat (set_varlist (mkVariables [Sample.x] [])
            (set_implicand Sample.x (set_body Sample.likes_x
               (Sample.raw Sample.BIND_LINK [Sample.likes_x; Sample.x]))))
    = _pat (Sample.raw Sample.BIND_LINK [Sample.likes_x; Sample.x])
  ∧ _virtual (set_varlist (mkVariables [Sample.x] [])
                (set_implicand Sample.x (set_body Sample.likes_x
                   (Sample.raw Sample.BIND_LINK [Sample.likes_x; Sample.x]))))
    = _virtual (Sample.raw Sample.BIND_LINK [Sample.likes_x; Sample.x])
  ∧ _components (set_varlist (mkVariables [Sample.x] [])
                   (set_implicand Sample.x (set_body Sample.likes_x
                      (Sample.raw Sample.BIND_LINK [Sample.likes_x; Sample.x]))))
    = _components (Sample.raw Sample.BIND_LINK [Sample.likes_x; Sample.x]).
Proof.
  apply (extract_variables_frame Sample.find_variables Sample.init_scoped_variables
           (Sample.raw Sample.BIND_LINK [Sample.likes_x; Sample.x])
           [Sample.likes_x; Sample.x]).
  vm_compute. reflexivity.
Defined.

Lemma init_returns_only_valid_witness :
  isA Sample.nameserver
    (get_type (Sample.raw Sample.BIND_LINK [Sample.likes_x; Sample.x]))
    Sample.BIND_LINK = true
  ∧ (length (_outgoing (Sample.raw Sample.BIND_LINK [Sample.likes_x; Sample.x])) = 2
     ∨ length (_outgoing (Sample.raw Sample.BIND_LINK [Sample.likes_x; Sample.x])) = 3)
  ∧ redex_name
      (_pat (mkBindLink Sample.BIND_LINK [Sample.likes_x; Sample.x] None UNDEFINED
               Sample.likes_x Sample.x (mkVariables [Sample.x] [])
               (mkPattern "anonymous BindLink" [] []) [] []))
    = "anonymous BindLink".
Proof.
  apply (init_returns_only_valid Sample.nameserver Sample.BIND_LINK
           Sample.find_variables Sample.init_scoped_variables
           Sample.unbundle_clauses Sample.keep Sample.keep
           (Sample.raw Sample.BIND_LINK [Sample.likes_x; Sample.x])).
  vm_compute. reflexivity.
Defined.

Lemma BindLink_of_handles_no_size_error_witness :
  isA Sample.nameserver
    (get_type (Sample.raw Sample.SET_LINK [Sample.x; Sample.likes_x; Sample.x]))
    Sample.BIND_LINK = false
  ∧ "Expecting a BindLink, got SetLink"
    = "Expecting a BindLink, got "
      ++ getTypeName Sample.nameserver
           (get_type (Sample.raw Sample.SET_LINK [Sample.x; Sample.likes_x; Sample.x])).
Proof.
  apply (proj1 (BindLink_of_handles_no_size_error Sample.nameserver
                  Sample.BIND_LINK Sample.find_variables
                  Sample.init_scoped_variables Sample.unbundle_clauses
                  Sample.keep Sample.keep (λ hseq t, inr (Sample.raw t hseq))
                  Sample.SET_LINK Sample.x Sample.likes_x Sample.x)
           (Sample.raw Sample.SET_LINK [Sample.x; Sample.likes_x; Sample.x])
           "Expecting a BindLink, got SetLink").
  - reflexivity.
  - reflexivity.
  - reflexivity.
Defined.

(** ** Further properties of execution *)

Section MoreExecutionFacts.
Variable SET_LINK : Type_.
Variable satisfy : BindLink → DefaultImplicator → string + (list Handle * bool).
Variable inst_execute : option AtomSpace → Handle → bool → string + ValuePtr.

Lemma size_list_to_set_le (found : list Handle) :
  (size (list_to_set found : HandleSet) ≤ length found)%nat.
Proof.
  unfold size, set_size. simpl.
  apply submseteq_length, NoDup_submseteq; [apply NoDup_elements |].
  intros h Hh%elem_of_elements. by apply elem_of_list_to_set in Hh.
Qed.

Lemma do_execute_no_match_inv self as_ silent found present r :
  satisfy self (query_callback self as_) = inr (found, present) →
  do_execute satisfy inst_execute self as_ silent = r →
  (found ≠ [] ∧ r = Returns (list_to_set found))
  ∨ (found = []
     ∧ r = if (0 =? length (mandatory (get_pattern self)))%nat
              && (0 <? length (optionals (get_pattern self)))%nat
              && negb present
           then
             v ← call (inst_execute (impl_as (query_callback self as_))
                         (get_implicand self) true);
             Returns {[ HandleCast v ]}
           else Returns ∅).
Proof.
  intros Hsat <-. destruct found as [| h found].
  - right. split; [done |]. by apply do_execute_no_match.
  - left. split; [done |]. by eapply do_execute_found.
Qed.

(** X6. When the search reports one grounding or more, [do_execute]
    returns the set of what was reported, duplicates collapsed: a handle
    is in the result exactly when it was reported, and the result is
    never larger than the report.  The pattern's clauses are not looked
    at and the instantiator is not run. *)
Theorem do_execute_found_members self as_ silent found present :
  satisfy self (query_callback self as_) = inr (found, present) →
  found ≠ [] →
  ∃ gs, do_execute satisfy inst_execute self as_ silent = Returns gs
        ∧ (∀ h, h ∈ gs ↔ h ∈ found)
        ∧ (0 < size gs ≤ length found)%nat.
Proof.
  intros Hsat Hne. exists (list_to_set found).
  split; [by eapply do_execute_found |].
  split; [intros h; apply elem_of_list_to_set |].
  split; [| apply size_list_to_set_le].
  destruct (size (list_to_set found : HandleSet)) eqn:Hsz; [| lia].
  by apply size_list_to_set_nil in Hsz.
Qed.

(** X7. [do_execute] throws in exactly two situations: the search
    throws, or the search reports nothing, the absence rule applies and
    the instantiator throws; it throws what the collaborator threw. *)
Theorem do_execute_throws_iff self as_ silent e :
  do_execute satisfy inst_execute self as_ silent = Throws e
  ↔ (∃ what, satisfy self (query_callback self as_) = inl what ∧ e = Foreign what)
    ∨ (∃ what,
         satisfy self (query_callback self as_) = inr ([], false)
         ∧ mandatory (get_pattern self) = []
         ∧ optionals (get_pattern self) ≠ []
         ∧ inst_execute (impl_as (query_callback self as_)) (get_implicand self) true
           = inl what
         ∧ e = Foreign what).
Proof.
  split.
  - destruct (satisfy self (query_callback self as_)) as [w | [found present]] eqn:Hsat.
    + rewrite (do_execute_search_throws _ _ _ _ _ _ Hsat). intros [= <-]. eauto.
    + intros Hthrow.
      destruct (do_execute_no_match_inv _ _ _ _ _ _ Hsat Hthrow)
        as [[_ ?] | [-> Hr]]; [done |].
      destruct (mandatory (get_pattern self)) as [| m ms]; [| done].
      destruct (optionals (get_pattern self)) as [| o os]; [done |].
      destruct present; [done |]. simpl in Hr.
      destruct (inst_execute _ _ true) as [w | v]; simpl in Hr; [| done].
      injection Hr as ->. right. exists w. eauto.
  - intros [(what & Hsat & ->) | (what & Hsat & Hm & Ho & Hinst & ->)].
    + by apply do_execute_search_throws.
    + rewrite (do_execute_no_match _ _ _ _ _ _ Hsat), Hm, Hinst.
      by destruct (optionals (get_pattern self)).
Qed.

(** X8. [do_execute] returns the empty set exactly when the search
    reports nothing and the absence rule does not apply: there is a
    mandatory clause, or no optional clause, or an optional clause was
    found present. *)
Theorem do_execute_empty_iff self as_ silent :
  do_execute satisfy inst_execute self as_ silent = Returns ∅
  ↔ ∃ present,
      satisfy self (query_callback self as_) = inr ([], present)
      ∧ (mandatory (get_pattern self) ≠ []
         ∨ optionals (get_pattern self) = []
         ∨ present = true).
Proof.
  split.
  - destruct (satisfy self (query_callback self as_)) as [w | [found present]] eqn:Hsat.
    + by rewrite (do_execute_search_throws _ _ _ _ _ _ Hsat).
    + intros Hret.
      destruct (do_execute_no_match_inv _ _ _ _ _ _ Hsat Hret)
        as [[Hne Hr] | [-> Hr]].
      * injection Hr as Hr. destruct found as [| h found]; [done |].
        exfalso. set_solver.
      * exists present. split; [done |].
        destruct (mandatory (get_pattern self)) as [| m ms]; [| by left].
        destruct (optionals (get_pattern self)) as [| o os]; [by right; left |].
        destruct present; [by right; right |]. simpl in Hr.
        destruct (inst_execute _ _ true) as [w | v]; simpl in Hr; [done |].
        injection Hr as Hr. exfalso. set_solver.
  - intros (present & Hsat & Hcase).
    rewrite (do_execute_no_match _ _ _ _ _ _ Hsat).
    destruct Hcase as [Hm | [-> | ->]].
    + by destruct (mandatory (get_pattern self)).
    + simpl. by rewrite andb_false_r.
    + simpl. by rewrite andb_false_r.
Qed.

(** X9. Passing no store to [do_execute] is passing the link's own
    store. *)
Theorem do_execute_null_is_default self silent :
  do_execute satisfy inst_execute self None silent
  = do_execute satisfy inst_execute self (_atom_space self) silent.
Proof. unfold do_execute. by destruct (_atom_space self). Qed.

Lemma do_execute_not_null_dereference self as_ silent :
  do_execute satisfy inst_execute self as_ silent ≠ NullDereference.
Proof.
  rewrite do_execute_unfold.
  destruct (satisfy self (query_callback self as_)) as [w | r]; simpl; [done |].
  destruct (0 <? size _)%nat; [done |].
  destruct (_ && _); [| done].
  by destruct (inst_execute _ _ true).
Qed.

(** X10. Called with a store, [execute] throws exactly when
    [do_execute] throws, with the same exception, returns exactly when
    [do_execute] returns, and never goes through a null pointer. *)
Theorem execute_with_store_outcome self store silent :
  (∀ e, execute SET_LINK satisfy inst_execute self (Some store) silent = Throws e
        ↔ do_execute satisfy inst_execute self (Some store) silent = Throws e)
  ∧ ((∃ r, execute SET_LINK satisfy inst_execute self (Some store) silent = Returns r)
     ↔ ∃ gs, do_execute satisfy inst_execute self (Some store) silent = Returns gs)
  ∧ execute SET_LINK satisfy inst_execute self (Some store) silent ≠ NullDereference.
Proof.
  pose proof (do_execute_not_null_dereference self (Some store) silent) as Hnn.
  unfold execute.
  destruct (do_execute satisfy inst_execute self (Some store) silent)
    as [gs | e' |]; simpl; [| | done].
  - split; [intros e; split; discriminate |].
    split; [| discriminate]. split; eauto.
  - split; [intros e; split; intros [= <-]; reflexivity |].
    split; [| discriminate]. split; intros [? ?]; discriminate.
Qed.

(** X11. Called with a null store pointer, [execute] never returns a
    result, even when the link has a store of its own: if the query
    throws, the exception leaves [execute]; if the query returns, the
    insertion goes through the null pointer. *)
Theorem execute_null_never_returns self silent :
  (∀ r, execute SET_LINK satisfy inst_execute self None silent ≠ Returns r)
  ∧ (∀ e, do_execute satisfy inst_execute self None silent = Throws e →
          execute SET_LINK satisfy inst_execute self None silent = Throws e)
  ∧ (∀ gs, do_execute satisfy inst_execute self None silent = Returns gs →
           execute SET_LINK satisfy inst_execute self None silent = NullDereference).
Proof.
  unfold execute.
  destruct (do_execute satisfy inst_execute self None silent) as [gs | e' |];
    simpl; (split; [intros r; discriminate |]); split; intros ?; congruence.
Qed.

End MoreExecutionFacts.

Lemma do_execute_found_members_witness :
  ∃ gs, do_execute SampleSearch.satisfy_twice SampleSearch.inst_execute
          Sample.likes_query (Some Sample.empty_store) false = Returns gs
        ∧ (∀ h, h ∈ gs ↔ h ∈ [Sample.bob; Sample.alice; Sample.bob])
        ∧ (0 < size gs ≤ length [Sample.bob; Sample.alice; Sample.bob])%nat.
Proof.
  apply (do_execute_found_members SampleSearch.satisfy_twice
           SampleSearch.inst_execute Sample.likes_query
           (Some Sample.empty_store) false
           [Sample.bob; Sample.alice; Sample.bob] false).
  - reflexivity.
  - discriminate.
Defined.

(** ** What the size message names *)

Lemma format_d_small (n : nat) :
  (Z.of_nat n < 2 ^ 31)%Z → format_d n = numeral n.
Proof.
  intros Hn. unfold format_d, numeral.
  rewrite Z.mod_small by lia.
  by rewrite (proj2 (Z.ltb_lt _ _) Hn).
Qed.

Lemma numeral_names (n : nat) : number_named (numeral n) = Some (Z.of_nat n).
Proof.
  unfold number_named, numeral.
  rewrite NilZero.isi.
  - simpl. by rewrite DecimalZ.of_to.
  - destruct (Z.of_nat n) as [| p | p]; simpl; [discriminate | | discriminate].
    intros [= Hp]. by apply DecimalPos.Unsigned.to_uint_nonnil in Hp.
  - destruct (Z.of_nat n) as [| p | p]; simpl; [discriminate | discriminate |].
    intros [= Hp]. by apply DecimalPos.Unsigned.to_uint_nonnil in Hp.
Qed.

(** X13. For an outgoing sequence of size 0, 1, or 4 up to 2^31 - 1,
    [extract_variables] throws an [InvalidParamException] whose message
    ends with the decimal numeral of the size, and that numeral names
    the size. *)
Theorem extract_variables_names_size find_variables init_scoped_variables self oset :
  length oset < 2 ∨ 3 < length oset →
  (Z.of_nat (length oset) < 2 ^ 31)%Z →
  extract_variables find_variables init_scoped_variables self oset
    = Throws (InvalidParamException
                ("Expecting an outgoing set size of at most two, got "
                 ++ numeral (length oset)))
  ∧ number_named (numeral (length oset)) = Some (Z.of_nat (length oset)).
Proof.
  intros Hsz Hsmall. split; [| apply numeral_names].
  rewrite (extract_variables_bad_size _ _ _ _ Hsz).
  by rewrite (format_d_small _ Hsmall).
Qed.

Lemma extract_variables_names_size_witness :
  extract_variables Sample.find_variables Sample.init_scoped_variables
    (Sample.raw Sample.BIND_LINK [])
    [Sample.x; Sample.x; Sample.x; Sample.x; Sample.x]
    = Throws (InvalidParamException
                ("Expecting an outgoing set size of at most two, got "
                 ++ numeral 5))
  ∧ number_named (numeral 5) = Some 5%Z.
Proof.
  apply (extract_variables_names_size Sample.find_variables
           Sample.init_scoped_variables (Sample.raw Sample.BIND_LINK [])
           [Sample.x; Sample.x; Sample.x; Sample.x; Sample.x]).
  - simpl. lia.
  - simpl. lia.
Defined.

(** C4.  The claim fails on an outgoing sequence of 2^31 handles:
    [extract_variables] throws, as the claim says, but the size goes
    through [%d], and the message names -2147483648, which is not the
    size. *)
Theorem extract_variables_size_overflow find_variables init_scoped_variables self :
  length (replicate (Z.to_nat 2147483648) UNDEFINED) = Z.to_nat 2147483648
  ∧ extract_variables find_variables init_scoped_variables self
      (replicate (Z.to_nat 2147483648) UNDEFINED)
    = Throws (InvalidParamException
                "Expecting an outgoing set size of at most two, got -2147483648")
  ∧ number_named "-2147483648"
    ≠ Some (Z.of_nat (length (replicate (Z.to_nat 2147483648) UNDEFINED))).
Proof.
  split; [apply length_replicate |]. split.
  - unfold extract_variables, format_d. rewrite length_replicate.
    rewrite Z2Nat.id by lia.
    assert ((3 <? Z.to_nat 2147483648)%nat = true) as ->
      by (apply Nat.ltb_lt; lia).
    rewrite orb_true_r. reflexivity.
  - rewrite length_replicate, Z2Nat.id by lia.
    change (number_named "-2147483648") with (Some (-2147483648)%Z).
    intros [= H].
Qed.

(** ** The store pointer of [execute] *)

(** The sample link with a store of its own. *)
Definition stored_likes_query : BindLink :=
  mkBindLink Sample.BIND_LINK [Sample.likes_x; Sample.x] (Some Sample.empty_store)
    UNDEFINED Sample.likes_x Sample.x
    (mkVariables [Sample.x] []) (mkPattern "anonymous BindLink" [Sample.likes_x] [])
    [] [[Sample.likes_x]].

(** C10.  The claim fails on a call with a null store pointer on a link
    that has a store of its own: [do_execute] falls back to that store
    and returns the grounding set, but [execute] inserts through its own
    null pointer, so no aggregate is stored and none is returned.  The
    same call with the store passed explicitly inserts the aggregate. *)
Theorem execute_null_store_defect :
  _atom_space stored_likes_query = Some Sample.empty_store
  ∧ do_execute SampleSearch.satisfy SampleSearch.inst_execute
      stored_likes_query None false
    = Returns {[ Sample.alice ]}
  ∧ execute Sample.SET_LINK SampleSearch.satisfy SampleSearch.inst_execute
      stored_likes_query None false
    = NullDereference
  ∧ execute Sample.SET_LINK SampleSearch.satisfy SampleSearch.inst_execute
      stored_likes_query (Some Sample.empty_store) false
    = Returns (0, mkAtomSpace [Link Sample.SET_LINK [Sample.alice]]).
Proof.
  assert (do_execute SampleSearch.satisfy SampleSearch.inst_execute
            stored_likes_query None false = Returns {[ Sample.alice ]}) as Hnull.
  { rewrite <- list_to_set_one.
    by apply (do_execute_found _ _ _ _ _ [Sample.alice] false). }
  assert (do_execute SampleSearch.satisfy SampleSearch.inst_execute
            stored_likes_query (Some Sample.empty_store) false
          = Returns {[ Sample.alice ]}) as Hstore.
  { rewrite <- list_to_set_one.
    by apply (do_execute_found _ _ _ _ _ [Sample.alice] false). }
  split; [reflexivity |]. split; [exact Hnull |]. unfold execute. split.
  - by rewrite Hnull.
  - rewrite Hstore. simpl. unfold createUnorderedLink.
    by rewrite elements_singleton.
Qed.
